(** * Jobs API: the User and Job models over a relational store

    Shallow embedding of [src/models/User.js] (class [User]) and of the
    [Job] class found in [src/unnamed/part_000].  The relational engine
    behind knex is modelled as a database record holding one optional table
    per table name; each knex statement becomes a function from the database
    to a [result], where [Err] means the statement was rejected and the
    database is left as it was (every statement is atomic).  The external
    primitives (bcrypt hashing, JWS signing) are section variables. *)

From Stdlib Require Import ZArith String List Bool Ascii Lia.
Import ListNotations.
Open Scope string_scope.
Open Scope Z_scope.

(** ** JavaScript values, as read from a request payload *)

Inductive jsval : Type :=
| JUndef
| JNull
| JBool (b : bool)
| JNum (n : Z)
| JStr (s : string)
| JObj.

(** JavaScript truthiness: [undefined], [null], [false], [0] and [""] are
    falsy, every other value is truthy. *)
Definition truthy (v : jsval) : bool :=
  match v with
  | JUndef | JNull => false
  | JBool b => b
  | JNum n => negb (n =? 0)
  | JStr s => negb (String.eqb s "")
  | JObj => true
  end.

(** ** The store *)

Inductive db_error : Type :=
| NoSuchTable
| CheckViolation      (** a NOT NULL or CHECK constraint rejected the row *)
| UniqueViolation     (** a UNIQUE constraint rejected the row *)
| MissingSecret.      (** [jwt.sign] refuses an empty or absent secret *)

Inductive result (A : Type) : Type :=
| Ok (a : A)
| Err (e : db_error).
Arguments Ok {A} a.
Arguments Err {A} e.

Record table (A : Type) : Type := mk_table {
  t_schema : list string;   (** the column definitions the table was created with *)
  t_rows : list A;
  t_next_id : Z             (** the AUTOINCREMENT counter of [increments("id")] *)
}.
Arguments mk_table {A} t_schema t_rows t_next_id.
Arguments t_schema {A} t.
Arguments t_rows {A} t.
Arguments t_next_id {A} t.

Record user_row : Type := mk_user {
  u_id : Z;
  u_name : string;
  u_email : string;
  u_password : string
}.

Record job : Type := mk_job {
  j_id : Z;
  j_role : jsval;
  j_company : jsval;
  j_status : jsval;
  j_created_by : Z;
  j_created_at : Z;
  j_updated_at : Z
}.

Record db : Type := mk_db {
  db_users : option (table user_row);
  db_jobs : option (table job)
}.

Definition set_users (t : table user_row) (d : db) : db :=
  mk_db (Some t) (db_jobs d).

Definition set_jobs (t : table job) (d : db) : db :=
  mk_db (db_users d) (Some t).

Definition set_rows {A} (rows : list A) (t : table A) : table A :=
  mk_table (t_schema t) rows (t_next_id t).

(** ** Schemas built by the two [initTable] methods *)

Definition users_schema : list string :=
  [ "id increments primary";
    "name varchar(50) not null check(length <= 50)";
    "email string not null unique";
    "check(email LIKE '%@%.%')";
    "password string not null check(length >= 6)" ].

Definition jobs_schema : list string :=
  [ "id increments primary";
    "role string not null check(length <= 100)";
    "company string not null check(length <= 50)";
    "status enum(pending, interview, decline) not null default pending";
    "created_by integer not null references users.id on delete cascade";
    "created_at timestamp default now";
    "updated_at timestamp default now" ].

(** [User.initTable]: [hasTable("users")], and [createTable] only when absent. *)
Definition User_initTable (d : db) : db :=
  match db_users d with
  | Some _ => d
  | None => set_users (mk_table users_schema [] 1) d
  end.

(** [Job.initTable]: [hasTable("jobs")], and [createTable] only when absent. *)
Definition Job_initTable (d : db) : db :=
  match db_jobs d with
  | Some _ => d
  | None => set_jobs (mk_table jobs_schema [] 1) d
  end.

(** ** The [Job] model *)

(** The fields of an update payload the code reads; an absent key reads as
    [JUndef]. *)
Record payload : Type := mk_payload {
  p_role : jsval;
  p_company : jsval;
  p_status : jsval
}.

(** The object [updates] built at the top of [updateJob]: one optional slot
    per spread, and the always present [updated_at]. *)
Record updates : Type := mk_updates {
  upd_role : option jsval;
  upd_company : option jsval;
  upd_status : option jsval;
  upd_updated_at : Z
}.

(** The object returned by [createJob]: [{ id, role, company, status, createdBy }]. *)
Record created_job : Type := mk_created_job {
  cr_id : Z;
  cr_role : jsval;
  cr_company : jsval;
  cr_status : jsval;
  cr_createdBy : Z
}.

(** A row of [getAllJobs]: [jobs.*] and [users.name as creator_name]. *)
Record job_with_creator : Type := mk_jwc {
  jwc_job : job;
  creator_name : string
}.

(** The condition [where({ id: jobId, created_by: userId })]. *)
Definition job_matches (jobId userId : Z) (j : job) : bool :=
  (j_id j =? jobId) && (j_created_by j =? userId).

(** [...(v && { col: v })]: the column is set iff the value is truthy. *)
Definition spread_if_truthy (v : jsval) : option jsval :=
  if truthy v then Some v else None.

Definition build_updates (p : payload) (now : Z) : updates :=
  mk_updates (spread_if_truthy (p_role p))
             (spread_if_truthy (p_company p))
             (spread_if_truthy (p_status p))
             now.

Definition set_col (u : option jsval) (old : jsval) : jsval :=
  match u with Some v => v | None => old end.

(** The SET clause applied to one row. *)
Definition apply_updates (u : updates) (j : job) : job :=
  mk_job (j_id j)
         (set_col (upd_role u) (j_role j))
         (set_col (upd_company u) (j_company j))
         (set_col (upd_status u) (j_status j))
         (j_created_by j)
         (j_created_at j)
         (upd_updated_at u).

(** The value a column receives from an insert.  knex's SQLite dialect
    cannot emit [DEFAULT] for an [undefined] property: with
    [useNullAsDefault] it binds NULL (without it, knex throws before the
    statement runs), so the column default is never used; a NOT NULL column
    then rejects the row. *)
Definition col_value (v : jsval) : jsval :=
  match v with JUndef => JNull | _ => v end.

Section JobModel.

(** The NOT NULL and CHECK constraints of the [jobs] table, as evaluated by
    the engine on an inserted or updated row. *)
Variable job_check : job -> bool.

(** [UPDATE jobs SET ... WHERE cond RETURNING *]: the rows after the
    statement and the returned (updated) rows; rejected as a whole when an
    updated row violates a constraint. *)
Definition sql_update (cond : job -> bool) (u : updates) (rows : list job)
  : result (list job * list job) :=
  let changed := map (apply_updates u) (filter cond rows) in
  if forallb job_check changed
  then Ok (map (fun j => if cond j then apply_updates u j else j) rows, changed)
  else Err CheckViolation.

(** [createJob({ role, company, status, createdBy })], at time [now]. *)
Definition createJob (d : db) (now : Z) (role company status : jsval) (createdBy : Z)
  : result (db * created_job) :=
  match db_jobs d with
  | None => Err NoSuchTable
  | Some t =>
      let id := t_next_id t in
      let row := mk_job id (col_value role) (col_value company)
                        (col_value status) createdBy now now in
      if job_check row
      then Ok (set_jobs (mk_table (t_schema t) (t_rows t ++ [row]) (id + 1)) d,
               mk_created_job id role company status createdBy)
      else Err CheckViolation
  end.

(** [getAllJobs({ userId })]: inner join of [jobs] with [users] on
    [jobs.created_by = users.id], restricted to [created_by = userId]. *)
Definition getAllJobs (d : db) (userId : Z) : result (list job_with_creator) :=
  match db_users d, db_jobs d with
  | Some ut, Some jt =>
      Ok (flat_map (fun j =>
            if j_created_by j =? userId
            then map (fun u => mk_jwc j (u_name u))
                     (filter (fun u => u_id u =? j_created_by j) (t_rows ut))
            else []) (t_rows jt))
  | _, _ => Err NoSuchTable
  end.

(** [getSingleJob({ jobId, userId })]: [.first()] of the matching rows;
    [None] is the [undefined] the promise resolves to when none matches. *)
Definition getSingleJob (d : db) (jobId userId : Z) : result (option job) :=
  match db_jobs d with
  | None => Err NoSuchTable
  | Some t => Ok (find (job_matches jobId userId) (t_rows t))
  end.

(** [updateJob({ jobId, userId }, payload)], [CURRENT_TIMESTAMP] being [now];
    [const [updatedJob] = ...] takes the first returned row. *)
Definition updateJob (d : db) (now jobId userId : Z) (p : payload)
  : result (db * option job) :=
  match db_jobs d with
  | None => Err NoSuchTable
  | Some t =>
      match sql_update (job_matches jobId userId) (build_updates p now) (t_rows t) with
      | Err e => Err e
      | Ok (rows', returned) => Ok (set_jobs (set_rows rows' t) d, hd_error returned)
      end
  end.

(** [deleteJob({ jobId, userId })]: the rows left and the count deleted. *)
Definition deleteJob (d : db) (jobId userId : Z) : result (db * nat) :=
  match db_jobs d with
  | None => Err NoSuchTable
  | Some t =>
      let cond := job_matches jobId userId in
      Ok (set_jobs (set_rows (filter (fun j => negb (cond j)) (t_rows t)) t) d,
          length (filter cond (t_rows t)))
  end.

(** [deleteJob] called [n] times in a row with the same arguments: the
    counts it returns. *)
Fixpoint deleteJob_n (n : nat) (d : db) (jobId userId : Z) : result (list nat) :=
  match n with
  | O => Ok []
  | S n' =>
      match deleteJob d jobId userId with
      | Err e => Err e
      | Ok (d', c) =>
          match deleteJob_n n' d' jobId userId with
          | Err e => Err e
          | Ok cs => Ok (c :: cs)
          end
      end
  end.

End JobModel.

(** The digits of a decimal numeral. *)
Fixpoint uint_text (u : Decimal.uint) : string :=
  match u with
  | Decimal.Nil => ""
  | Decimal.D0 u => String "0" (uint_text u)
  | Decimal.D1 u => String "1" (uint_text u)
  | Decimal.D2 u => String "2" (uint_text u)
  | Decimal.D3 u => String "3" (uint_text u)
  | Decimal.D4 u => String "4" (uint_text u)
  | Decimal.D5 u => String "5" (uint_text u)
  | Decimal.D6 u => String "6" (uint_text u)
  | Decimal.D7 u => String "7" (uint_text u)
  | Decimal.D8 u => String "8" (uint_text u)
  | Decimal.D9 u => String "9" (uint_text u)
  end.

Definition z_text (n : Z) : string :=
  match Z.to_int n with
  | Decimal.Pos u => uint_text u
  | Decimal.Neg u => String "-" (uint_text u)
  end.

(** The value stored in a TEXT-affinity column for a bound JS value: a
    string as is, a number as its decimal text, a boolean as the integer
    1 or 0 the SQLite driver binds; [None] is NULL ([null], or [undefined]
    bound as NULL) and also stands for an object, which is not a bindable
    scalar. *)
Definition sql_text (v : jsval) : option string :=
  match v with
  | JStr s => Some s
  | JNum n => Some (z_text n)
  | JBool b => Some (if b then "1" else "0")
  | JUndef | JNull | JObj => None
  end.

(** SQLite's [length()] on text: the number of characters, i.e. of UTF-8
    bytes that are not continuation bytes ([10xxxxxx]). *)
Definition sql_length (s : string) : nat :=
  List.length (filter (fun c => let n := nat_of_ascii c in
                                negb ((128 <=? n)%nat && (n <? 192)%nat))
                      (list_ascii_of_string s)).

(** The constraints [Job.initTable] declares: NOT NULL role and company
    with [checkLength("<=", 100)] and [checkLength("<=", 50)], and the
    NOT NULL [status] enumeration (a CHECK [status in (...)]). *)
Definition jobs_schema_check (j : job) : bool :=
  match sql_text (j_role j), sql_text (j_company j), sql_text (j_status j) with
  | Some r, Some c, Some s =>
      (sql_length r <=? 100)%nat && (sql_length c <=? 50)%nat &&
      existsb (String.eqb s) ["pending"; "interview"; "decline"]
  | _, _, _ => false
  end.

(** ** The [User] model *)

(** SQL [LIKE] on a pattern with [%] and [_] wildcards (the pattern used
    here, ['%@%.%'], has no letters, so case folding plays no role). *)
Fixpoint like (p s : list ascii) {struct p} : bool :=
  match p with
  | [] => match s with [] => true | _ => false end
  | c :: p' =>
      if Ascii.eqb c "%"%char then
        (fix go (s : list ascii) : bool :=
           like p' s || match s with [] => false | _ :: s' => go s' end) s
      else if Ascii.eqb c "_"%char then
        match s with [] => false | _ :: s' => like p' s' end
      else
        match s with [] => false | d :: s' => Ascii.eqb c d && like p' s' end
  end.

(** The NOT NULL and CHECK constraints [User.initTable] creates.  knex
    keeps one [checkLength] modifier per column, the last one chained, so
    [name] only gets [length(name) <= 50]; [string("name", 50)] is a
    [varchar(50)], which SQLite does not enforce. *)
Definition users_check (name email password : string) : bool :=
  (sql_length name <=? 50)%nat &&
  like (list_ascii_of_string "%@%.%") (list_ascii_of_string email) &&
  (6 <=? sql_length password)%nat.

(** The JWT claims: [{ userId: user.id, name: user.name }]. *)
Inductive claim_val : Type :=
| CNum (n : Z)
| CStr (s : string).

Definition jwt_claims (user : user_row) : list (string * claim_val) :=
  [("userId", CNum (u_id user)); ("name", CStr (u_name user))].

(** [expiresIn: "30d"], in seconds. *)
Definition thirty_days : Z := 30 * 24 * 60 * 60.

Fixpoint assoc {A} (k : string) (l : list (string * A)) : option A :=
  match l with
  | [] => None
  | (k', v) :: l' => if String.eqb k k' then Some v else assoc k l'
  end.

(** A row of [.returning("id")] on SQLite: [{ id }]. *)
Record returned_id : Type := mk_returned_id {
  rid_id : Z
}.

(** The object returned by [createUser]: [{ id, name, email, hashedPassword }],
    where [id] is the first row of [.returning("id")], the object [{ id }]. *)
Record created_user : Type := mk_created_user {
  cu_id : returned_id;
  cu_name : string;
  cu_email : string;
  cu_hashedPassword : string
}.

Section UserModel.

(** [bcrypt.hash(password, salt)]; the salt is the value [genSalt(10)] drew. *)
Variable bcrypt_hash : string -> string -> string.

(** [jwt.sign]'s signing of a payload with a secret. *)
Variable jws_sign : list (string * claim_val) -> string -> string.

(** [INSERT INTO users (name, email, password)]: NOT NULL and CHECK
    constraints first, then the UNIQUE index on [email]. *)
Definition insert_user (d : db) (name email password : string) : result (db * Z) :=
  match db_users d with
  | None => Err NoSuchTable
  | Some t =>
      let id := t_next_id t in
      if negb (users_check name email password) then Err CheckViolation
      else if existsb (fun u => String.eqb (u_email u) email) (t_rows t)
      then Err UniqueViolation
      else Ok (set_users (mk_table (t_schema t)
                                   (t_rows t ++ [mk_user id name email password])
                                   (id + 1)) d, id)
  end.

(** [createUser({ name, email, password })] with the salt [salt]. *)
Definition createUser (d : db) (salt name email password : string)
  : result (db * created_user) :=
  let hashedPassword := bcrypt_hash password salt in
  match insert_user d name email hashedPassword with
  | Err e => Err e
  | Ok (d', id) => Ok (d', mk_created_user (mk_returned_id id) name email hashedPassword)
  end.

(** [findByEmail(email)]: [.first()] of the rows with that email. *)
Definition findByEmail (d : db) (email : string) : result (option user_row) :=
  match db_users d with
  | None => Err NoSuchTable
  | Some t => Ok (find (fun u => String.eqb (u_email u) email) (t_rows t))
  end.

(** [createJWT(user)] with the environment [env] and the clock [now_ms]
    ([Date.now()]): [jwt.sign] adds [iat] (seconds) and [exp = iat + 30d]
    to the payload, and throws on an empty or absent secret. *)
Definition createJWT (env : list (string * string)) (now_ms : Z) (user : user_row)
  : result string :=
  match assoc "JWT_SECRET" env with
  | None => Err MissingSecret
  | Some secret =>
      if String.eqb secret "" then Err MissingSecret
      else
        let iat := now_ms / 1000 in
        Ok (jws_sign (jwt_claims user ++ [("iat", CNum iat); ("exp", CNum (iat + thirty_days))])
                     secret)
  end.

End UserModel.

(** ** Sample data *)

Definition alice : user_row := mk_user 1 "Alice" "a@b.com" "$2a$10$hashhashhash".
Definition bob : user_row := mk_user 2 "Bob" "b@c.com" "$2a$10$hashhashhash".

Definition job_a : job := mk_job 1 (JStr "Engineer") (JStr "Acme") (JStr "pending") 1 100 100.
Definition job_b : job := mk_job 2 (JStr "Tester") (JStr "Initech") (JStr "interview") 2 100 100.

Definition sample_db : db :=
  mk_db (Some (mk_table users_schema [alice; bob] 3))
        (Some (mk_table jobs_schema [job_a; job_b] 3)).

(** A hash stand-in for examples: the salt followed by the password. *)
Definition toy_hash (password salt : string) : string := salt ++ password.

Example like_ok : like (list_ascii_of_string "%@%.%") (list_ascii_of_string "a@b.com") = true.
Proof. reflexivity. Qed.
Example users_check_short_name : users_check "Al" "a@b.com" "$2a$10$hash" = true.
Proof. reflexivity. Qed.
Example sql_length_utf8 : sql_length (String (ascii_of_nat 195) (String (ascii_of_nat 169) "")) = 1%nat.
Proof. reflexivity. Qed.
Example jobs_check_numeric_role :
  jobs_schema_check (mk_job 1 (JNum (-12)) (JStr "Acme") (JStr "pending") 1 0 0) = true /\
  sql_text (JNum (-12)) = Some "-12".
Proof. split; reflexivity. Qed.
Example like_ko : like (list_ascii_of_string "%@%.%") (list_ascii_of_string "a.b@com") = false.
Proof. reflexivity. Qed.

(** A signer stand-in for examples: the claim names, comma separated. *)
Definition claim_names_sign (pl : list (string * claim_val)) (_ : string) : string :=
  String.concat "," (map fst pl).

(** ** Table invariants the engine keeps *)

(** The [jobs] table: distinct ids, all below the AUTOINCREMENT counter. *)
Definition jobs_wf (t : table job) : Prop :=
  NoDup (map j_id (t_rows t)) /\ Forall (fun j => j_id j < t_next_id t) (t_rows t).

(** The [users] table: the same for ids, and distinct emails (UNIQUE). *)
Definition users_wf (t : table user_row) : Prop :=
  NoDup (map u_id (t_rows t)) /\ Forall (fun u => u_id u < t_next_id t) (t_rows t) /\
  NoDup (map u_email (t_rows t)).

(** ** Lemmas on the list operations the statements use *)

Lemma find_none_intro {A} (f : A -> bool) (l : list A) :
  (forall x, In x l -> f x = false) -> find f l = None.
Proof.
  induction l as [|a l IH]; intros H; simpl; [reflexivity|].
  rewrite (H a (or_introl eq_refl)). apply IH. intros x Hx. apply H. now right.
Qed.

Lemma in_map_cond_keep {A} (cond : A -> bool) (g : A -> A) (rows : list A) (r : A) :
  In r rows -> cond r = false ->
  In r (map (fun j => if cond j then g j else j) rows).
Proof.
  intros Hin Hc. apply in_map_iff. exists r. now rewrite Hc.
Qed.

Lemma in_filter_keep {A} (cond : A -> bool) (rows : list A) (r : A) :
  In r rows -> cond r = false -> In r (filter (fun j => negb (cond j)) rows).
Proof.
  intros Hin Hc. apply filter_In. now rewrite Hc.
Qed.

Lemma map_cond_id {A} (cond : A -> bool) (g : A -> A) (rows : list A) :
  (forall x, In x rows -> cond x = false) ->
  map (fun j => if cond j then g j else j) rows = rows.
Proof.
  induction rows as [|a rows IH]; intros H; simpl; [reflexivity|].
  rewrite (H a (or_introl eq_refl)). f_equal. apply IH. intros x Hx. apply H. now right.
Qed.

Lemma filter_all_false {A} (cond : A -> bool) (rows : list A) :
  (forall x, In x rows -> cond x = false) -> filter cond rows = [].
Proof.
  induction rows as [|a rows IH]; intros H; simpl; [reflexivity|].
  rewrite (H a (or_introl eq_refl)). apply IH. intros x Hx. apply H. now right.
Qed.

Lemma filter_negb_all_false {A} (cond : A -> bool) (rows : list A) :
  (forall x, In x rows -> cond x = false) -> filter (fun j => negb (cond j)) rows = rows.
Proof.
  induction rows as [|a rows IH]; intros H; simpl; [reflexivity|].
  rewrite (H a (or_introl eq_refl)). simpl. f_equal. apply IH. intros x Hx. apply H. now right.
Qed.

(** A row matching [id = jobId] in a table with distinct ids is the only
    one: the matching rows number at most one. *)
Lemma filter_match_le1 (rows : list job) (jobId userId : Z) :
  NoDup (map j_id rows) -> (length (filter (job_matches jobId userId) rows) <= 1)%nat.
Proof.
  induction rows as [|a rows IH]; intros Hnd; simpl; [lia|].
  inversion Hnd as [|? ? Hnotin Hnd']; subst.
  destruct (job_matches jobId userId a) eqn:Ha; simpl; [|now apply IH].
  rewrite filter_all_false; [simpl; lia|].
  intros x Hx. unfold job_matches in *.
  apply andb_prop in Ha as [Ha _]. apply Z.eqb_eq in Ha.
  destruct (j_id x =? jobId) eqn:Hx'; [|reflexivity].
  apply Z.eqb_eq in Hx'. exfalso. apply Hnotin. rewrite Ha, <- Hx'.
  now apply in_map.
Qed.

(** ** Claims *)

(** C9: [initTable] of both models is create-if-absent: an existing table
    (schema, rows and counter) is left as it is, and a second call changes
    nothing after the first. *)
Theorem initTable_idempotent (d : db) :
  (forall t, db_users d = Some t -> User_initTable d = d) /\
  User_initTable (User_initTable d) = User_initTable d /\
  (forall t, db_jobs d = Some t -> Job_initTable d = d) /\
  Job_initTable (Job_initTable d) = Job_initTable d.
Proof.
  unfold User_initTable, Job_initTable.
  split; [|split; [|split]].
  - intros t Ht. now rewrite Ht.
  - destruct (db_users d) eqn:E; [now rewrite E|reflexivity].
  - intros t Ht. now rewrite Ht.
  - destruct (db_jobs d) eqn:E; [now rewrite E|reflexivity].
Qed.

(** C1: a job created by owner [A] is invisible and immutable for any other
    owner [B]: [getSingleJob] by [B] never yields it and answers [undefined]
    for its id exactly as for an id absent from the table, [getAllJobs] for
    [B] never lists it, and [updateJob] / [deleteJob] by [B] leave it in
    the table. *)
Theorem owner_isolation (job_check : job -> bool) (d : db) (t : table job) (r : job)
    (B jid now : Z) (p : payload) :
  db_jobs d = Some t -> NoDup (map j_id (t_rows t)) -> In r (t_rows t) ->
  j_created_by r <> B ->
  getSingleJob d (j_id r) B = Ok None /\
  (forall absent, ~ In absent (map j_id (t_rows t)) -> getSingleJob d absent B = Ok None) /\
  (forall id, getSingleJob d id B <> Ok (Some r)) /\
  (forall rows, getAllJobs d B = Ok rows -> forall x, In x rows -> jwc_job x <> r) /\
  (forall d' ret, updateJob job_check d now jid B p = Ok (d', ret) ->
     exists t', db_jobs d' = Some t' /\ In r (t_rows t')) /\
  (forall d' c, deleteJob d jid B = Ok (d', c) ->
     exists t', db_jobs d' = Some t' /\ In r (t_rows t')).
Proof.
  intros Ht Hnd Hin HB.
  assert (Hnm : forall id, job_matches id B r = false).
  { intros id. unfold job_matches. apply andb_false_iff. right.
    now apply Z.eqb_neq. }
  unfold getSingleJob. rewrite Ht.
  split; [|split; [|split; [|split; [|split]]]].
  - f_equal. apply find_none_intro. intros x Hx. unfold job_matches.
    destruct (j_id x =? j_id r) eqn:Hid; [|reflexivity]. simpl.
    apply Z.eqb_eq in Hid.
    assert (x = r).
    { clear -Hnd Hx Hin Hid. induction (t_rows t) as [|a l IH]; [contradiction|].
      inversion Hnd as [|? ? Hnotin Hnd']; subst. simpl in Hx, Hin.
      destruct Hx as [<-|Hx], Hin as [<-|Hin]; try reflexivity.
      - exfalso. apply Hnotin. rewrite Hid. now apply in_map.
      - exfalso. apply Hnotin. rewrite <- Hid. now apply in_map.
      - now apply IH. }
    subst x. now apply Z.eqb_neq.
  - intros absent Habs. f_equal. apply find_none_intro. intros x Hx.
    unfold job_matches. destruct (j_id x =? absent) eqn:Hid; [|reflexivity].
    apply Z.eqb_eq in Hid. exfalso. apply Habs. rewrite <- Hid. now apply in_map.
  - intros id Heq. injection Heq as Heq. apply find_some in Heq as [_ Hm].
    now rewrite Hnm in Hm.
  - intros rows Hall x Hx Hxr. unfold getAllJobs in Hall. rewrite Ht in Hall.
    destruct (db_users d); [|discriminate]. injection Hall as <-.
    apply in_flat_map in Hx as [j [_ Hj]].
    destruct (j_created_by j =? B) eqn:Hjb; [|contradiction].
    apply in_map_iff in Hj as [u [Hu _]]. subst x. simpl in Hxr. subst j.
    apply Z.eqb_eq in Hjb. contradiction.
  - intros d' ret Hup. unfold updateJob, sql_update in Hup. rewrite Ht in Hup.
    destruct (forallb _ _); [|discriminate]. injection Hup as <- _.
    eexists. split; [reflexivity|]. simpl. now apply in_map_cond_keep.
  - intros d' c Hdel. unfold deleteJob in Hdel. rewrite Ht in Hdel.
    injection Hdel as <- _. eexists. split; [reflexivity|]. simpl.
    now apply in_filter_keep.
Qed.

Lemma owner_isolation_witness :
  (db_jobs sample_db = Some (mk_table jobs_schema [job_a; job_b] 3) /\
   NoDup (map j_id [job_a; job_b]) /\ In job_a [job_a; job_b] /\ j_created_by job_a <> 2) /\
  getSingleJob sample_db (j_id job_a) 2 = Ok None.
Proof.
  assert (Hnd : NoDup (map j_id [job_a; job_b])).
  { simpl. constructor; [simpl; intros [H|H]; [discriminate|contradiction]|].
    constructor; [intros []|constructor]. }
  split; [split; [reflexivity|split; [exact Hnd|split; [simpl; auto|simpl; discriminate]]]|].
  refine (proj1 (owner_isolation jobs_schema_check sample_db
           (mk_table jobs_schema [job_a; job_b] 3) job_a 2 1 0
           (mk_payload JUndef JUndef JUndef) eq_refl Hnd (or_introl eq_refl) _)).
  simpl. discriminate.
Defined.

Lemma filter_unique_key {A} (key : A -> Z) (f : A -> bool) (l : list A) (x : A) :
  NoDup (map key l) -> In x l -> f x = true ->
  (forall y, f y = true -> key y = key x) -> filter f l = [x].
Proof.
  induction l as [|a l IH]; intros Hnd Hin Hf Hkey; [contradiction|].
  inversion Hnd as [|? ? Hnotin Hnd']; subst. simpl in Hin.
  destruct Hin as [<-|Hin].
  - simpl. rewrite Hf. f_equal. apply filter_all_false. intros y Hy.
    destruct (f y) eqn:Hfy; [|reflexivity]. exfalso. apply Hnotin.
    rewrite <- (Hkey y Hfy). now apply in_map.
  - simpl. destruct (f a) eqn:Hfa.
    + exfalso. apply Hnotin. rewrite (Hkey a Hfa). now apply in_map.
    + now apply IH.
Qed.

Lemma job_matches_self_only (rows : list job) (r : job) :
  NoDup (map j_id rows) -> In r rows ->
  filter (job_matches (j_id r) (j_created_by r)) rows = [r].
Proof.
  intros Hnd Hin. apply (filter_unique_key j_id); auto.
  - unfold job_matches. now rewrite !Z.eqb_refl.
  - intros y Hy. unfold job_matches in Hy. apply andb_prop in Hy as [Hy _].
    now apply Z.eqb_eq.
Qed.

Lemma set_col_spread (v old : jsval) :
  set_col (spread_if_truthy v) old = if truthy v then v else old.
Proof. unfold spread_if_truthy. now destruct (truthy v). Qed.

Lemma set_jobs_same (d : db) (t : table job) :
  db_jobs d = Some t -> set_jobs (set_rows (t_rows t) t) d = d.
Proof. destruct d, t; simpl; intros H; now subst. Qed.

Lemma apply_updates_matches (u : updates) (jid uid : Z) (j : job) :
  job_matches jid uid (apply_updates u j) = job_matches jid uid j.
Proof. reflexivity. Qed.

Lemma filter_nm_map_update (jid uid : Z) (u : updates) (rows : list job) :
  filter (fun j => negb (job_matches jid uid j))
    (map (fun j => if job_matches jid uid j then apply_updates u j else j) rows) =
  filter (fun j => negb (job_matches jid uid j)) rows.
Proof.
  induction rows as [|a rows IH]; simpl; [reflexivity|].
  destruct (job_matches jid uid a) eqn:Ha; simpl;
    rewrite ?apply_updates_matches, ?Ha; simpl; now rewrite IH.
Qed.

Lemma deleteJob_n_S (n : nat) (d : db) (jid uid : Z) :
  deleteJob_n (S n) d jid uid =
  match deleteJob d jid uid with
  | Err e => Err e
  | Ok (d', c) =>
      match deleteJob_n n d' jid uid with
      | Err e => Err e
      | Ok cs => Ok (c :: cs)
      end
  end.
Proof. reflexivity. Qed.

Lemma filter_idem {A} (f : A -> bool) (l : list A) :
  filter f (filter f l) = filter f l.
Proof.
  induction l as [|a l IH]; simpl; [reflexivity|].
  destruct (f a) eqn:Ha; simpl; rewrite ?Ha; now rewrite ?IH.
Qed.

(** C2: updating an existing owned job sets exactly the columns among
    [role], [company], [status] whose payload value is truthy (a falsy value
    such as [""] leaves the column as it was), keeps id, owner and
    [created_at], and sets [updated_at] to the current time whatever the
    payload; the statement succeeds iff the engine accepts that row, and
    then returns it and stores it. *)
Theorem updateJob_truthy_fields (job_check : job -> bool) (d : db) (t : table job)
    (r : job) (now : Z) (p : payload) :
  db_jobs d = Some t -> NoDup (map j_id (t_rows t)) -> In r (t_rows t) ->
  let r' := mk_job (j_id r)
                   (if truthy (p_role p) then p_role p else j_role r)
                   (if truthy (p_company p) then p_company p else j_company r)
                   (if truthy (p_status p) then p_status p else j_status r)
                   (j_created_by r) (j_created_at r) now in
  match updateJob job_check d now (j_id r) (j_created_by r) p with
  | Ok (d', ret) =>
      ret = Some r' /\ job_check r' = true /\
      exists t', db_jobs d' = Some t' /\ In r' (t_rows t')
  | Err e => e = CheckViolation /\ job_check r' = false
  end.
Proof.
  intros Ht Hnd Hin r'.
  assert (Hr' : apply_updates (build_updates p now) r = r').
  { unfold apply_updates, build_updates, r'. simpl. now rewrite !set_col_spread. }
  unfold updateJob, sql_update. rewrite Ht, job_matches_self_only by assumption.
  simpl. rewrite Hr', andb_true_r.
  destruct (job_check r') eqn:Hc; simpl.
  - split; [reflexivity|split; [reflexivity|]]. eexists. split; [reflexivity|].
    simpl. rewrite <- Hr'. apply in_map_iff. exists r.
    unfold job_matches. now rewrite !Z.eqb_refl.
  - now split.
Qed.

Lemma updateJob_truthy_fields_witness :
  (db_jobs sample_db = Some (mk_table jobs_schema [job_a; job_b] 3) /\
   NoDup (map j_id [job_a; job_b]) /\ In job_a [job_a; job_b]) /\
  updateJob jobs_schema_check sample_db 500 1 1 (mk_payload JUndef JUndef (JStr "")) =
    Ok (mk_db (db_users sample_db)
              (Some (mk_table jobs_schema
                       [mk_job 1 (JStr "Engineer") (JStr "Acme") (JStr "pending") 1 100 500; job_b] 3)),
        Some (mk_job 1 (JStr "Engineer") (JStr "Acme") (JStr "pending") 1 100 500)).
Proof.
  assert (Hnd : NoDup (map j_id [job_a; job_b])).
  { simpl. constructor; [simpl; intros [H|H]; [discriminate|contradiction]|].
    constructor; [intros []|constructor]. }
  split; [split; [reflexivity|split; [exact Hnd|simpl; auto]]|].
  pose proof (updateJob_truthy_fields jobs_schema_check sample_db
                (mk_table jobs_schema [job_a; job_b] 3) job_a 500
                (mk_payload JUndef JUndef (JStr "")) eq_refl Hnd (or_introl eq_refl)) as H.
  simpl in H |- *. reflexivity.
Defined.

(** C10: [updateJob] and [deleteJob] leave every row that does not match
    both [id] and [created_by] as it was (the non-matching rows, in order,
    are the same before and after), touch no other table, and when no row
    matches they leave the database unchanged, [updateJob] returning
    [undefined] and [deleteJob] returning 0. *)
Theorem update_delete_frame (job_check : job -> bool) (d : db) (t : table job)
    (now jid uid : Z) (p : payload) :
  db_jobs d = Some t ->
  let nm := fun j => negb (job_matches jid uid j) in
  (forall d' ret, updateJob job_check d now jid uid p = Ok (d', ret) ->
     db_users d' = db_users d /\
     exists t', db_jobs d' = Some t' /\ filter nm (t_rows t') = filter nm (t_rows t)) /\
  (forall d' c, deleteJob d jid uid = Ok (d', c) ->
     db_users d' = db_users d /\
     exists t', db_jobs d' = Some t' /\ filter nm (t_rows t') = filter nm (t_rows t)) /\
  ((forall x, In x (t_rows t) -> job_matches jid uid x = false) ->
     updateJob job_check d now jid uid p = Ok (d, None) /\
     deleteJob d jid uid = Ok (d, 0%nat)).
Proof.
  intros Ht nm. split; [|split].
  - intros d' ret Hup. unfold updateJob, sql_update in Hup. rewrite Ht in Hup.
    destruct (forallb _ _); [|discriminate]. injection Hup as <- _.
    split; [reflexivity|]. eexists. split; [reflexivity|].
    apply filter_nm_map_update.
  - intros d' c Hdel. unfold deleteJob in Hdel. rewrite Ht in Hdel.
    injection Hdel as <- _. split; [reflexivity|]. eexists. split; [reflexivity|].
    apply filter_idem.
  - intros Hnone. unfold updateJob, sql_update, deleteJob. rewrite Ht.
    rewrite filter_all_false by assumption. simpl.
    rewrite map_cond_id, filter_negb_all_false by assumption.
    rewrite set_jobs_same by assumption. split; reflexivity.
Qed.

Lemma update_delete_frame_witness :
  db_jobs sample_db = Some (mk_table jobs_schema [job_a; job_b] 3) /\
  updateJob jobs_schema_check sample_db 500 1 2 (mk_payload (JStr "Boss") JUndef JUndef) =
    Ok (sample_db, None).
Proof.
  split; [reflexivity|].
  refine (proj1 (proj2 (proj2 (update_delete_frame jobs_schema_check sample_db
            (mk_table jobs_schema [job_a; job_b] 3) 500 1 2
            (mk_payload (JStr "Boss") JUndef JUndef) eq_refl)) _)).
  intros x [<-|[<-|[]]]; reflexivity.
Defined.

(** C7: with distinct ids, [deleteJob] returns 0 or 1; for an existing
    owned job it removes that row and returns 1, and every later call with
    the same arguments returns 0. *)
Theorem deleteJob_count_once (d : db) (t : table job) (jid uid : Z) :
  db_jobs d = Some t -> NoDup (map j_id (t_rows t)) ->
  (forall d' c, deleteJob d jid uid = Ok (d', c) -> (c <= 1)%nat) /\
  (forall r, In r (t_rows t) -> j_id r = jid -> j_created_by r = uid ->
     exists d', deleteJob d jid uid = Ok (d', 1%nat) /\
       (exists t', db_jobs d' = Some t' /\
          forall x, In x (t_rows t') -> job_matches jid uid x = false) /\
       forall n, deleteJob_n n d' jid uid = Ok (repeat 0%nat n)).
Proof.
  intros Ht Hnd. split.
  - intros d' c Hdel. unfold deleteJob in Hdel. rewrite Ht in Hdel.
    injection Hdel as _ <-. now apply filter_match_le1.
  - intros r Hin <- <-. unfold deleteJob. rewrite Ht.
    rewrite job_matches_self_only by assumption. eexists. split; [reflexivity|].
    set (d' := set_jobs _ d).
    assert (Hd' : db_jobs d' = Some (set_rows (filter (fun j => negb (job_matches (j_id r) (j_created_by r) j)) (t_rows t)) t))
      by reflexivity.
    assert (Hnone : forall x, In x (t_rows (set_rows (filter (fun j => negb (job_matches (j_id r) (j_created_by r) j)) (t_rows t)) t)) ->
                    job_matches (j_id r) (j_created_by r) x = false).
    { intros x Hx. simpl in Hx. apply filter_In in Hx as [_ Hx].
      now apply negb_true_iff. }
    split; [eexists; split; [exact Hd'|exact Hnone]|].
    assert (Hfix : deleteJob d' (j_id r) (j_created_by r) = Ok (d', 0%nat)).
    { unfold deleteJob. rewrite Hd'.
      rewrite (filter_all_false (job_matches (j_id r) (j_created_by r))) by exact Hnone.
      rewrite (filter_negb_all_false (job_matches (j_id r) (j_created_by r))) by exact Hnone.
      reflexivity. }
    induction n as [|n IH]; [reflexivity|].
    rewrite deleteJob_n_S, Hfix, IH. reflexivity.
Qed.

Lemma deleteJob_count_once_witness :
  (db_jobs sample_db = Some (mk_table jobs_schema [job_a; job_b] 3) /\
   NoDup (map j_id [job_a; job_b])) /\
  deleteJob_n 3 sample_db 1 1 = Ok [1%nat; 0%nat; 0%nat].
Proof.
  assert (Hnd : NoDup (map j_id [job_a; job_b])).
  { simpl. constructor; [simpl; intros [H|H]; [discriminate|contradiction]|].
    constructor; [intros []|constructor]. }
  split; [split; [reflexivity|exact Hnd]|].
  destruct (proj2 (deleteJob_count_once sample_db (mk_table jobs_schema [job_a; job_b] 3) 1 1
                     eq_refl Hnd) job_a (or_introl eq_refl) eq_refl eq_refl)
    as [d' [Hd [_ Hn]]].
  specialize (Hn 2%nat). cbv [j_id j_created_by job_a] in Hd, Hn.
  rewrite deleteJob_n_S, Hd, Hn. reflexivity.
Defined.

(** C8: when the owner's account is in [users] (whose ids are distinct),
    [getAllJobs] returns exactly the owner's jobs, each once, joined with
    the owner's name as [creator_name]. *)
Theorem getAllJobs_exact (d : db) (ut : table user_row) (jt : table job) (owner : user_row) :
  db_users d = Some ut -> db_jobs d = Some jt ->
  NoDup (map u_id (t_rows ut)) -> In owner (t_rows ut) ->
  getAllJobs d (u_id owner) =
    Ok (map (fun j => mk_jwc j (u_name owner))
            (filter (fun j => j_created_by j =? u_id owner) (t_rows jt))).
Proof.
  intros Hu Hj Hnd Hin. unfold getAllJobs. rewrite Hu, Hj. f_equal.
  induction (t_rows jt) as [|j rows IH]; simpl; [reflexivity|].
  destruct (j_created_by j =? u_id owner) eqn:Hc; [|exact IH].
  apply Z.eqb_eq in Hc. rewrite Hc.
  rewrite (filter_unique_key u_id (fun u => u_id u =? u_id owner) (t_rows ut) owner Hnd Hin)
    by (rewrite ?Z.eqb_refl; auto; intros y Hy; now apply Z.eqb_eq).
  simpl. now rewrite IH.
Qed.

Lemma getAllJobs_exact_witness :
  (db_users sample_db = Some (mk_table users_schema [alice; bob] 3) /\
   db_jobs sample_db = Some (mk_table jobs_schema [job_a; job_b] 3) /\
   NoDup (map u_id [alice; bob]) /\ In alice [alice; bob]) /\
  getAllJobs sample_db 1 = Ok [mk_jwc job_a "Alice"].
Proof.
  assert (Hnd : NoDup (map u_id [alice; bob])).
  { simpl. constructor; [simpl; intros [H|H]; [discriminate|contradiction]|].
    constructor; [intros []|constructor]. }
  split; [split; [reflexivity|split; [reflexivity|split; [exact Hnd|simpl; auto]]]|].
  exact (getAllJobs_exact sample_db (mk_table users_schema [alice; bob] 3)
           (mk_table jobs_schema [job_a; job_b] 3) alice eq_refl eq_refl Hnd
           (or_introl eq_refl)).
Defined.

(** C3: [createJob] with [status] unset does not get the [pending]
    default [Job.initTable] declares: knex binds the [undefined] status as
    NULL, the NOT NULL [status] column rejects the row, and the call fails
    whatever the other arguments. *)
Theorem createJob_unset_status_rejected (d : db) (t : table job) (now : Z)
    (role company : jsval) (createdBy : Z) :
  db_jobs d = Some t ->
  createJob jobs_schema_check d now role company JUndef createdBy = Err CheckViolation.
Proof.
  intros Ht. unfold createJob. rewrite Ht. unfold jobs_schema_check. cbn [j_role j_company j_status].
  destruct (sql_text (col_value role)), (sql_text (col_value company)); reflexivity.
Qed.

Lemma createJob_unset_status_rejected_witness :
  db_jobs sample_db = Some (mk_table jobs_schema [job_a; job_b] 3) /\
  createJob jobs_schema_check sample_db 200 (JStr "Engineer") (JStr "Acme") JUndef 1 =
    Err CheckViolation.
Proof.
  split; [reflexivity|].
  exact (createJob_unset_status_rejected sample_db (mk_table jobs_schema [job_a; job_b] 3)
           200 (JStr "Engineer") (JStr "Acme") 1 eq_refl).
Defined.

(** C4, as stated: the token payload has no [accountId] field; the id is
    under [userId]. *)
Lemma createJWT_no_accountId_field :
  assoc "accountId" (jwt_claims alice) = None /\
  assoc "userId" (jwt_claims alice) = Some (CNum 1) /\
  createJWT claim_names_sign [("JWT_SECRET", "s3cret")] 1700000000000 alice =
    Ok "userId,name,iat,exp".
Proof. split; [reflexivity|split; reflexivity]. Qed.

(** C4, amended: with a non-empty [JWT_SECRET] in the environment,
    [createJWT] signs with that secret a payload holding the account id
    under [userId], the name under [name], [iat] the issue time in seconds
    and [exp] 30 days later; there is no [accountId] field. *)
Theorem createJWT_payload (jws_sign : list (string * claim_val) -> string -> string)
    (env : list (string * string)) (now_ms : Z) (user : user_row) (secret : string) :
  assoc "JWT_SECRET" env = Some secret -> secret <> "" ->
  exists pl, createJWT jws_sign env now_ms user = Ok (jws_sign pl secret) /\
    assoc "userId" pl = Some (CNum (u_id user)) /\
    assoc "name" pl = Some (CStr (u_name user)) /\
    assoc "accountId" pl = None /\
    assoc "iat" pl = Some (CNum (now_ms / 1000)) /\
    assoc "exp" pl = Some (CNum (now_ms / 1000 + 30 * 86400)).
Proof.
  intros Hs Hne. unfold createJWT. rewrite Hs.
  apply String.eqb_neq in Hne. rewrite Hne.
  eexists. split; [reflexivity|]. repeat split.
Qed.

Lemma createJWT_payload_witness :
  (assoc "JWT_SECRET" [("JWT_SECRET", "s3cret")] = Some "s3cret" /\ "s3cret" <> "") /\
  exists pl, createJWT claim_names_sign [("JWT_SECRET", "s3cret")] 1700000000000 alice =
               Ok (claim_names_sign pl "s3cret") /\
    assoc "userId" pl = Some (CNum 1) /\
    assoc "exp" pl = Some (CNum (1700000000 + 2592000)).
Proof.
  split; [split; [reflexivity|discriminate]|].
  destruct (createJWT_payload claim_names_sign [("JWT_SECRET", "s3cret")] 1700000000000 alice
              "s3cret" eq_refl ltac:(discriminate)) as [pl [H [Hu [_ [_ [_ He]]]]]].
  exists pl. split; [exact H|split; [exact Hu|exact He]].
Defined.

Lemma existsb_all_false {A} (f : A -> bool) (l : list A) :
  (forall y, In y l -> f y = false) -> existsb f l = false.
Proof.
  induction l as [|a l IH]; intros H; simpl; [reflexivity|].
  rewrite (H a (or_introl eq_refl)). apply IH. intros y Hy. apply H. now right.
Qed.

Lemma find_app_none_first {A} (f : A -> bool) (l : list A) (x : A) :
  (forall y, In y l -> f y = false) -> f x = true -> find f (app l [x]) = Some x.
Proof.
  induction l as [|a l IH]; intros H Hx; simpl; [now rewrite Hx|].
  rewrite (H a (or_introl eq_refl)). apply IH; auto. intros y Hy. apply H. now right.
Qed.

(** C6: [email] is UNIQUE in [users]: of two [createUser] calls with the
    same (not yet registered) email and otherwise valid input, the first
    inserts its row and the second is rejected by the UNIQUE constraint,
    the first row staying as it was. *)
Theorem email_unique_conflict (bcrypt_hash : string -> string -> string) (d : db)
    (t : table user_row) (salt1 salt2 name1 name2 email pw1 pw2 : string) :
  db_users d = Some t -> ~ In email (map u_email (t_rows t)) ->
  users_check name1 email (bcrypt_hash pw1 salt1) = true ->
  users_check name2 email (bcrypt_hash pw2 salt2) = true ->
  exists d1 c1,
    createUser bcrypt_hash d salt1 name1 email pw1 = Ok (d1, c1) /\
    findByEmail d1 email =
      Ok (Some (mk_user (rid_id (cu_id c1)) name1 email (bcrypt_hash pw1 salt1))) /\
    createUser bcrypt_hash d1 salt2 name2 email pw2 = Err UniqueViolation.
Proof.
  intros Ht Hfresh Hc1 Hc2.
  assert (Hnone : forall y, In y (t_rows t) -> String.eqb (u_email y) email = false).
  { intros y Hy. apply String.eqb_neq. intros <-. apply Hfresh. now apply in_map. }
  unfold createUser at 1, insert_user. rewrite Ht, Hc1. simpl negb. cbv iota.
  rewrite existsb_all_false by exact Hnone.
  eexists; eexists. split; [reflexivity|]. split.
  - unfold findByEmail. simpl. f_equal. apply find_app_none_first; [exact Hnone|].
    apply String.eqb_refl.
  - unfold createUser, insert_user. simpl. rewrite Hc2. simpl.
    rewrite existsb_app. simpl. rewrite String.eqb_refl, orb_true_r. reflexivity.
Qed.

Lemma email_unique_conflict_witness :
  (db_users sample_db = Some (mk_table users_schema [alice; bob] 3) /\
   ~ In "c@d.com" (map u_email [alice; bob]) /\
   users_check "Carol" "c@d.com" (toy_hash "secret1" "salt") = true /\
   users_check "Dave" "c@d.com" (toy_hash "secret2" "pepper") = true) /\
  exists d1 c1,
    createUser toy_hash sample_db "salt" "Carol" "c@d.com" "secret1" = Ok (d1, c1) /\
    createUser toy_hash d1 "pepper" "Dave" "c@d.com" "secret2" = Err UniqueViolation.
Proof.
  assert (Hf : ~ In "c@d.com" (map u_email [alice; bob])).
  { simpl. intros [H|[H|[]]]; discriminate. }
  split; [split; [reflexivity|split; [exact Hf|split; reflexivity]]|].
  destruct (email_unique_conflict toy_hash sample_db (mk_table users_schema [alice; bob] 3)
              "salt" "pepper" "Carol" "Dave" "c@d.com" "secret1" "secret2"
              eq_refl Hf eq_refl eq_refl) as [d1 [c1 [H1 [_ H2]]]].
  exists d1, c1. split; [exact H1|exact H2].
Defined.

(** ** Further properties of the models *)

Lemma NoDup_snoc {A} (l : list A) (x : A) :
  NoDup l -> ~ In x l -> NoDup (app l [x]).
Proof.
  induction l as [|a l IH]; intros Hnd Hx; simpl.
  - constructor; [intros []|constructor].
  - inversion Hnd as [|? ? Ha Hnd']; subst. constructor.
    + intros Hin. apply in_app_or in Hin as [Hin|[<-|[]]]; [contradiction|].
      apply Hx. now left.
    + apply IH; auto. intros Hin. apply Hx. now right.
Qed.

Lemma NoDup_map_filter {A B} (key : A -> B) (f : A -> bool) (l : list A) :
  NoDup (map key l) -> NoDup (map key (filter f l)).
Proof.
  induction l as [|a l IH]; intros Hnd; simpl; [constructor|].
  inversion Hnd as [|? ? Ha Hnd']; subst.
  destruct (f a); simpl; [|now apply IH].
  constructor; [|now apply IH].
  intros Hin. apply Ha. apply in_map_iff in Hin as [y [Hy Hin]].
  apply filter_In in Hin as [Hin _]. rewrite <- Hy. now apply in_map.
Qed.

Lemma map_key_update (u : updates) (cond : job -> bool) (rows : list job) :
  map j_id (map (fun j => if cond j then apply_updates u j else j) rows) = map j_id rows.
Proof.
  induction rows as [|a rows IH]; simpl; [reflexivity|].
  rewrite IH. now destruct (cond a).
Qed.

Lemma Forall_lt_not_in {A} (key : A -> Z) (l : list A) (n : Z) :
  Forall (fun x => key x < n) l -> ~ In n (map key l).
Proof.
  intros Hf Hin. apply in_map_iff in Hin as [x [Hx Hin]].
  rewrite Forall_forall in Hf. specialize (Hf x Hin). lia.
Qed.

Lemma Forall_lt_snoc {A} (key : A -> Z) (l : list A) (x : A) (n : Z) :
  Forall (fun y => key y < n) l -> key x = n ->
  Forall (fun y => key y < n + 1) (app l [x]).
Proof.
  intros Hf Hx. apply Forall_app. split.
  - eapply Forall_impl; [|exact Hf]. simpl. intros; lia.
  - constructor; [lia|constructor].
Qed.

(** [Job.initTable] creates a well-formed [jobs] table, and [createJob],
    [updateJob] and [deleteJob] keep it well formed: ids stay distinct and
    below the AUTOINCREMENT counter. *)
Theorem jobs_wf_preserved (job_check : job -> bool) (d : db) (t : table job) :
  (db_jobs d = None -> exists t0, db_jobs (Job_initTable d) = Some t0 /\ jobs_wf t0) /\
  (db_jobs d = Some t -> jobs_wf t ->
   (forall now role company status createdBy d' c,
      createJob job_check d now role company status createdBy = Ok (d', c) ->
      exists t', db_jobs d' = Some t' /\ jobs_wf t') /\
   (forall now jid uid p d' ret,
      updateJob job_check d now jid uid p = Ok (d', ret) ->
      exists t', db_jobs d' = Some t' /\ jobs_wf t') /\
   (forall jid uid d' c,
      deleteJob d jid uid = Ok (d', c) ->
      exists t', db_jobs d' = Some t' /\ jobs_wf t')).
Proof.
  split.
  - intros Hn. unfold Job_initTable. rewrite Hn. eexists. split; [reflexivity|].
    split; constructor.
  - intros Ht [Hnd Hlt]. split; [|split].
    + intros now role company status createdBy d' c Hc. unfold createJob in Hc.
      rewrite Ht in Hc. destruct (job_check _); [|discriminate]. injection Hc as <- _.
      eexists. split; [reflexivity|]. split; simpl.
      * rewrite map_app. apply NoDup_snoc; [exact Hnd|].
        now apply (Forall_lt_not_in j_id).
      * now apply Forall_lt_snoc.
    + intros now jid uid p d' ret Hup. unfold updateJob, sql_update in Hup.
      rewrite Ht in Hup. destruct (forallb _ _); [|discriminate]. injection Hup as <- _.
      eexists. split; [reflexivity|]. split; simpl.
      * now rewrite map_key_update.
      * rewrite Forall_map. rewrite Forall_forall in Hlt |- *.
        intros j Hj. destruct (job_matches jid uid j); simpl; now apply Hlt.
    + intros jid uid d' c Hdel. unfold deleteJob in Hdel. rewrite Ht in Hdel.
      injection Hdel as <- _. eexists. split; [reflexivity|]. split; simpl.
      * now apply NoDup_map_filter.
      * rewrite Forall_forall in Hlt |- *. intros j Hj.
        apply filter_In in Hj as [Hj _]. now apply Hlt.
Qed.

Lemma jobs_wf_preserved_witness :
  (db_jobs sample_db = Some (mk_table jobs_schema [job_a; job_b] 3) /\
   jobs_wf (mk_table jobs_schema [job_a; job_b] 3)) /\
  exists t', db_jobs (set_jobs (mk_table jobs_schema
                  [job_a; job_b; mk_job 3 (JStr "Engineer") (JStr "Acme") (JStr "pending") 1 200 200] 4)
                sample_db) = Some t' /\ jobs_wf t'.
Proof.
  assert (Hwf : jobs_wf (mk_table jobs_schema [job_a; job_b] 3)).
  { split; simpl.
    - constructor; [simpl; intros [H|H]; [discriminate|contradiction]|].
      constructor; [intros []|constructor].
    - repeat constructor. }
  split; [split; [reflexivity|exact Hwf]|].
  exact (proj1 (proj2 (jobs_wf_preserved jobs_schema_check sample_db
                         (mk_table jobs_schema [job_a; job_b] 3)) eq_refl Hwf)
           200 (JStr "Engineer") (JStr "Acme") (JStr "pending") 1 _ _ eq_refl).
Defined.

(** [User.initTable] creates a well-formed [users] table, and a successful
    [createUser] keeps it well formed: ids distinct and below the counter,
    emails distinct. *)
Theorem users_wf_preserved (bcrypt_hash : string -> string -> string) (d : db)
    (t : table user_row) :
  (db_users d = None -> exists t0, db_users (User_initTable d) = Some t0 /\ users_wf t0) /\
  (db_users d = Some t -> users_wf t ->
   forall salt name email password d' c,
     createUser bcrypt_hash d salt name email password = Ok (d', c) ->
     exists t', db_users d' = Some t' /\ users_wf t').
Proof.
  split.
  - intros Hn. unfold User_initTable. rewrite Hn. eexists. split; [reflexivity|].
    split; [constructor|split; constructor].
  - intros Ht [Hnd [Hlt Hem]] salt name email password d' c Hc.
    unfold createUser, insert_user in Hc. rewrite Ht in Hc.
    destruct (negb _); [discriminate|].
    destruct (existsb _ _) eqn:Hex; [discriminate|]. injection Hc as <- _.
    eexists. split; [reflexivity|]. split; [|split]; simpl.
    + rewrite map_app. apply NoDup_snoc; [exact Hnd|].
      now apply (Forall_lt_not_in u_id).
    + now apply Forall_lt_snoc.
    + rewrite map_app. apply NoDup_snoc; [exact Hem|]. simpl.
      intros Hin. apply in_map_iff in Hin as [u [Hu Hin]].
      assert (Hx : existsb (fun u => String.eqb (u_email u) email) (t_rows t) = true)
        by (apply existsb_exists; exists u; split; [exact Hin|now apply String.eqb_eq]).
      congruence.
Qed.

Definition users_ab : table user_row := mk_table users_schema [alice; bob] 3.

Lemma users_ab_wf : users_wf users_ab.
Proof.
  split; [|split]; simpl.
  - constructor; [simpl; intros [H|H]; [discriminate|contradiction]|].
    constructor; [intros []|constructor].
  - repeat constructor.
  - constructor; [simpl; intros [H|H]; [discriminate|contradiction]|].
    constructor; [intros []|constructor].
Qed.

Lemma users_wf_preserved_witness :
  (db_users sample_db = Some users_ab /\ users_wf users_ab) /\
  exists d' c t', createUser toy_hash sample_db "salt" "Carol" "c@d.com" "secret1" = Ok (d', c) /\
    db_users d' = Some t' /\ users_wf t'.
Proof.
  split; [split; [reflexivity|exact users_ab_wf]|].
  do 2 eexists.
  assert (Hc : createUser toy_hash sample_db "salt" "Carol" "c@d.com" "secret1" =
               Ok (set_users (mk_table users_schema
                     [alice; bob; mk_user 3 "Carol" "c@d.com" "saltsecret1"] 4) sample_db,
                   mk_created_user (mk_returned_id 3) "Carol" "c@d.com" "saltsecret1")) by reflexivity.
  destruct (proj2 (users_wf_preserved toy_hash sample_db users_ab) eq_refl users_ab_wf
              "salt" "Carol" "c@d.com" "secret1" _ _ Hc) as [t' [Ht' Hwf]].
  exists t'. split; [exact Hc|split; [exact Ht'|exact Hwf]].
Defined.

(** [createUser] followed by [findByEmail] on the same email: the lookup
    finds the inserted row, whose stored password is the bcrypt hash the
    call returned as [hashedPassword], and whose id the call returned. *)
Theorem createUser_findByEmail (bcrypt_hash : string -> string -> string) (d d' : db)
    (salt name email password : string) (c : created_user) :
  createUser bcrypt_hash d salt name email password = Ok (d', c) ->
  cu_name c = name /\ cu_email c = email /\
  cu_hashedPassword c = bcrypt_hash password salt /\
  findByEmail d' email =
    Ok (Some (mk_user (rid_id (cu_id c)) name email (bcrypt_hash password salt))).
Proof.
  intros Hc. unfold createUser, insert_user in Hc.
  destruct (db_users d) as [t|] eqn:Ht; [|discriminate].
  destruct (negb _); [discriminate|].
  destruct (existsb _ _) eqn:Hex; [discriminate|]. injection Hc as <- <-.
  split; [reflexivity|split; [reflexivity|split; [reflexivity|]]].
  unfold findByEmail. simpl. f_equal. apply find_app_none_first.
  - intros y Hy. destruct (String.eqb (u_email y) email) eqn:E; [|reflexivity].
    assert (existsb (fun u => String.eqb (u_email u) email) (t_rows t) = true)
      by (apply existsb_exists; eauto). congruence.
  - apply String.eqb_refl.
Qed.

Lemma createUser_findByEmail_witness :
  createUser toy_hash sample_db "salt" "Carol" "c@d.com" "secret1" =
    Ok (set_users (mk_table users_schema
          [alice; bob; mk_user 3 "Carol" "c@d.com" "saltsecret1"] 4) sample_db,
        mk_created_user (mk_returned_id 3) "Carol" "c@d.com" "saltsecret1") /\
  findByEmail (set_users (mk_table users_schema
          [alice; bob; mk_user 3 "Carol" "c@d.com" "saltsecret1"] 4) sample_db) "c@d.com" =
    Ok (Some (mk_user 3 "Carol" "c@d.com" "saltsecret1")).
Proof.
  assert (Hc : createUser toy_hash sample_db "salt" "Carol" "c@d.com" "secret1" =
    Ok (set_users (mk_table users_schema
          [alice; bob; mk_user 3 "Carol" "c@d.com" "saltsecret1"] 4) sample_db,
        mk_created_user (mk_returned_id 3) "Carol" "c@d.com" "saltsecret1")) by reflexivity.
  split; [exact Hc|].
  exact (proj2 (proj2 (proj2 (createUser_findByEmail toy_hash _ _ _ _ _ _ _ Hc)))).
Defined.



Lemma find_unique_key_helper (rows : list user_row) (u : user_row) (email : string) :
  NoDup (map u_email rows) -> In u rows -> u_email u = email ->
  find (fun v => String.eqb (u_email v) email) rows = Some u.
Proof.
  induction rows as [|a rows IH]; intros Hnd Hin He; [contradiction|].
  inversion Hnd as [|? ? Ha Hnd']; subst. simpl.
  destruct Hin as [<-|Hin].
  - now rewrite String.eqb_refl.
  - destruct (String.eqb (u_email a) (u_email u)) eqn:E.
    + apply String.eqb_eq in E. exfalso. apply Ha. rewrite E. now apply in_map.
    + now apply IH.
Qed.

(** With distinct emails (the UNIQUE index), [findByEmail] finds exactly
    the row registered under that email, and [undefined] when there is
    none. *)
Theorem findByEmail_spec (d : db) (t : table user_row) (email : string) (u : user_row) :
  db_users d = Some t -> users_wf t ->
  (findByEmail d email = Ok (Some u) <-> In u (t_rows t) /\ u_email u = email) /\
  (findByEmail d email = Ok None <-> ~ In email (map u_email (t_rows t))).
Proof.
  intros Ht [_ [_ Hem]]. unfold findByEmail. rewrite Ht. split; split.
  - intros H. injection H as H. apply find_some in H as [Hin He].
    split; [exact Hin|]. now apply String.eqb_eq.
  - intros [Hin He].
    rewrite (find_unique_key_helper (t_rows t) u email Hem Hin He). reflexivity.
  - intros H. injection H as H. intros Hin.
    apply in_map_iff in Hin as [v [Hv Hin]].
    pose proof (find_none _ _ H v Hin) as Hf. simpl in Hf.
    rewrite Hv, String.eqb_refl in Hf. discriminate.
  - intros Hn. f_equal. apply find_none_intro. intros y Hy.
    apply String.eqb_neq. intros <-. apply Hn. now apply in_map.
Qed.

Lemma findByEmail_spec_witness :
  (db_users sample_db = Some users_ab /\ users_wf users_ab) /\
  findByEmail sample_db "zed@x.org" = Ok None.
Proof.
  split; [split; [reflexivity|exact users_ab_wf]|].
  apply (proj2 (proj2 (findByEmail_spec sample_db users_ab "zed@x.org" alice eq_refl users_ab_wf))).
  simpl. intros [H|[H|[]]]; discriminate.
Defined.

Lemma hd_map_filter {A B} (c : A -> bool) (g : A -> B) (l : list A) :
  hd_error (map g (filter c l)) = option_map g (find c l).
Proof.
  induction l as [|a l IH]; simpl; [reflexivity|]. now destruct (c a).
Qed.

Lemma find_map_update {A} (c : A -> bool) (g : A -> A) (l : list A) :
  (forall x, c (g x) = c x) ->
  find c (map (fun j => if c j then g j else j) l) = option_map g (find c l).
Proof.
  intros Hg. induction l as [|a l IH]; simpl; [reflexivity|].
  destruct (c a) eqn:Ha; simpl.
  - now rewrite Hg, Ha.
  - now rewrite Ha.
Qed.

(** [updateJob] and [getSingleJob] agree: a successful update returns
    [undefined] exactly when [getSingleJob] found no job for that id and
    owner before, and otherwise that job with the payload applied; and
    [getSingleJob] afterwards returns what the update returned. *)
Theorem updateJob_getSingleJob (job_check : job -> bool) (d d' : db) (now jid uid : Z)
    (p : payload) (ret : option job) :
  updateJob job_check d now jid uid p = Ok (d', ret) ->
  (exists before, getSingleJob d jid uid = Ok before /\
     ret = option_map (apply_updates (build_updates p now)) before) /\
  getSingleJob d' jid uid = Ok ret.
Proof.
  intros Hup. unfold updateJob, sql_update in Hup.
  destruct (db_jobs d) as [t|] eqn:Ht; [|discriminate].
  destruct (forallb _ _); [|discriminate]. injection Hup as <- <-.
  rewrite hd_map_filter. split.
  - eexists. split; [unfold getSingleJob; rewrite Ht; reflexivity|reflexivity].
  - unfold getSingleJob. simpl. f_equal. apply find_map_update.
    intros x. apply apply_updates_matches.
Qed.

Lemma updateJob_getSingleJob_witness :
  updateJob jobs_schema_check sample_db 500 2 2 (mk_payload JUndef JUndef (JStr "decline")) =
    Ok (set_jobs (mk_table jobs_schema
          [job_a; mk_job 2 (JStr "Tester") (JStr "Initech") (JStr "decline") 2 100 500] 3) sample_db,
        Some (mk_job 2 (JStr "Tester") (JStr "Initech") (JStr "decline") 2 100 500)) /\
  getSingleJob (set_jobs (mk_table jobs_schema
          [job_a; mk_job 2 (JStr "Tester") (JStr "Initech") (JStr "decline") 2 100 500] 3) sample_db) 2 2 =
    Ok (Some (mk_job 2 (JStr "Tester") (JStr "Initech") (JStr "decline") 2 100 500)).
Proof.
  assert (H : updateJob jobs_schema_check sample_db 500 2 2 (mk_payload JUndef JUndef (JStr "decline")) =
    Ok (set_jobs (mk_table jobs_schema
          [job_a; mk_job 2 (JStr "Tester") (JStr "Initech") (JStr "decline") 2 100 500] 3) sample_db,
        Some (mk_job 2 (JStr "Tester") (JStr "Initech") (JStr "decline") 2 100 500))) by reflexivity.
  split; [exact H|exact (proj2 (updateJob_getSingleJob _ _ _ _ _ _ _ _ H))].
Defined.

(** [createJob] followed by [getSingleJob] with the returned id and the
    owner finds the stored row: the inserted columns as bound and both
    timestamps at the insertion time. *)
Theorem createJob_getSingleJob (job_check : job -> bool) (d d' : db) (t : table job)
    (now : Z) (role company status : jsval) (createdBy : Z) (c : created_job) :
  db_jobs d = Some t -> jobs_wf t ->
  createJob job_check d now role company status createdBy = Ok (d', c) ->
  getSingleJob d' (cr_id c) createdBy =
    Ok (Some (mk_job (cr_id c) (col_value role) (col_value company)
                     (col_value status) createdBy now now)).
Proof.
  intros Ht [_ Hlt] Hc. unfold createJob in Hc. rewrite Ht in Hc.
  destruct (job_check _); [|discriminate]. injection Hc as <- <-.
  unfold getSingleJob. simpl. f_equal. apply find_app_none_first.
  - intros y Hy. rewrite Forall_forall in Hlt. specialize (Hlt y Hy).
    unfold job_matches. apply andb_false_iff. left. apply Z.eqb_neq. lia.
  - unfold job_matches. simpl. now rewrite !Z.eqb_refl.
Qed.

Lemma createJob_getSingleJob_witness :
  (db_jobs sample_db = Some (mk_table jobs_schema [job_a; job_b] 3) /\
   jobs_wf (mk_table jobs_schema [job_a; job_b] 3) /\
   createJob jobs_schema_check sample_db 200 (JStr "Engineer") (JStr "Acme") (JStr "pending") 1 =
     Ok (set_jobs (mk_table jobs_schema
                    [job_a; job_b; mk_job 3 (JStr "Engineer") (JStr "Acme") (JStr "pending") 1 200 200] 4)
                  sample_db,
         mk_created_job 3 (JStr "Engineer") (JStr "Acme") (JStr "pending") 1)) /\
  getSingleJob (set_jobs (mk_table jobs_schema
                    [job_a; job_b; mk_job 3 (JStr "Engineer") (JStr "Acme") (JStr "pending") 1 200 200] 4)
                  sample_db) 3 1 =
    Ok (Some (mk_job 3 (JStr "Engineer") (JStr "Acme") (JStr "pending") 1 200 200)).
Proof.
  assert (Hwf : jobs_wf (mk_table jobs_schema [job_a; job_b] 3)).
  { split; simpl.
    - constructor; [simpl; intros [H|H]; [discriminate|contradiction]|].
      constructor; [intros []|constructor].
    - repeat constructor. }
  assert (Hc : createJob jobs_schema_check sample_db 200 (JStr "Engineer") (JStr "Acme") (JStr "pending") 1 =
     Ok (set_jobs (mk_table jobs_schema
                    [job_a; job_b; mk_job 3 (JStr "Engineer") (JStr "Acme") (JStr "pending") 1 200 200] 4)
                  sample_db,
         mk_created_job 3 (JStr "Engineer") (JStr "Acme") (JStr "pending") 1)) by reflexivity.
  split; [split; [reflexivity|split; [exact Hwf|exact Hc]]|].
  exact (createJob_getSingleJob jobs_schema_check sample_db _ (mk_table jobs_schema [job_a; job_b] 3)
           200 _ _ _ 1 _ eq_refl Hwf Hc).
Defined.

(** After [deleteJob], [getSingleJob] with the same id and owner answers
    [undefined]; the table lost exactly as many rows as the returned count,
    while [updateJob] never changes the number of rows. *)
Theorem deleteJob_getSingleJob_count (job_check : job -> bool) (d : db) (t : table job)
    (jid uid now : Z) (p : payload) :
  db_jobs d = Some t ->
  (forall d' c, deleteJob d jid uid = Ok (d', c) ->
     getSingleJob d' jid uid = Ok None /\
     exists t', db_jobs d' = Some t' /\ (length (t_rows t') + c = length (t_rows t))%nat) /\
  (forall d' ret, updateJob job_check d now jid uid p = Ok (d', ret) ->
     exists t', db_jobs d' = Some t' /\ length (t_rows t') = length (t_rows t)).
Proof.
  intros Ht. split.
  - intros d' c Hdel. unfold deleteJob in Hdel. rewrite Ht in Hdel.
    injection Hdel as <- <-. split.
    + unfold getSingleJob. simpl. f_equal. apply find_none_intro.
      intros x Hx. apply filter_In in Hx as [_ Hx]. now apply negb_true_iff.
    + eexists. split; [reflexivity|]. simpl.
      clear Ht. induction (t_rows t) as [|a l IH]; simpl; [reflexivity|].
      destruct (job_matches jid uid a); simpl; lia.
  - intros d' ret Hup. unfold updateJob, sql_update in Hup. rewrite Ht in Hup.
    destruct (forallb _ _); [|discriminate]. injection Hup as <- _.
    eexists. split; [reflexivity|]. simpl. apply length_map.
Qed.

Lemma deleteJob_getSingleJob_count_witness :
  db_jobs sample_db = Some (mk_table jobs_schema [job_a; job_b] 3) /\
  deleteJob sample_db 1 1 = Ok (set_jobs (mk_table jobs_schema [job_b] 3) sample_db, 1%nat) /\
  getSingleJob (set_jobs (mk_table jobs_schema [job_b] 3) sample_db) 1 1 = Ok None.
Proof.
  assert (H : deleteJob sample_db 1 1 = Ok (set_jobs (mk_table jobs_schema [job_b] 3) sample_db, 1%nat))
    by reflexivity.
  split; [reflexivity|split; [exact H|]].
  exact (proj1 (proj1 (deleteJob_getSingleJob_count jobs_schema_check sample_db
                         (mk_table jobs_schema [job_a; job_b] 3) 1 1 0
                         (mk_payload JUndef JUndef JUndef) eq_refl) _ _ H)).
Defined.

(** Under the [jobs] schema, [createJob] refuses a job whose role or
    company is missing (stored as NULL in a NOT NULL column) or whose
    status is a string outside [pending], [interview], [decline]. *)
Theorem createJob_schema_rejects (d : db) (t : table job) (now : Z)
    (role company status : jsval) (createdBy : Z) :
  db_jobs d = Some t ->
  (role = JUndef \/ company = JUndef \/
   (exists s, status = JStr s /\ ~ In s ["pending"; "interview"; "decline"])) ->
  createJob jobs_schema_check d now role company status createdBy = Err CheckViolation.
Proof.
  intros Ht Hbad. unfold createJob. rewrite Ht.
  destruct Hbad as [->|[->|[s [-> Hs]]]].
  - reflexivity.
  - unfold jobs_schema_check. cbn [j_role j_company j_status].
    now destruct (sql_text (col_value role)).
  - assert (Hx : existsb (String.eqb s) ["pending"; "interview"; "decline"] = false).
    { apply existsb_all_false. intros y Hy.
      apply String.eqb_neq. intros <-. exact (Hs Hy). }
    unfold jobs_schema_check. cbn [j_role j_company j_status col_value sql_text].
    destruct (sql_text (col_value role)), (sql_text (col_value company)); try reflexivity.
    cbn -[existsb]. now rewrite Hx, andb_false_r.
Qed.

Lemma createJob_schema_rejects_witness :
  (db_jobs sample_db = Some (mk_table jobs_schema [job_a; job_b] 3) /\
   (JStr "Engineer" = JUndef \/ JStr "Acme" = JUndef \/
    (exists s, JStr "hired" = JStr s /\ ~ In s ["pending"; "interview"; "decline"]))) /\
  createJob jobs_schema_check sample_db 200 (JStr "Engineer") (JStr "Acme") (JStr "hired") 1 =
    Err CheckViolation.
Proof.
  assert (Hb : JStr "Engineer" = JUndef \/ JStr "Acme" = JUndef \/
    (exists s, JStr "hired" = JStr s /\ ~ In s ["pending"; "interview"; "decline"])).
  { right; right. exists "hired". split; [reflexivity|].
    simpl. intros [H|[H|[H|[]]]]; discriminate. }
  split; [split; [reflexivity|exact Hb]|].
  exact (createJob_schema_rejects sample_db (mk_table jobs_schema [job_a; job_b] 3) 200
           _ _ _ 1 eq_refl Hb).
Defined.

Lemma forallb_false_intro {A} (f : A -> bool) (l : list A) (x : A) :
  In x l -> f x = false -> forallb f l = false.
Proof.
  induction l as [|a l IH]; intros Hin Hx; [contradiction|]. simpl.
  destruct Hin as [<-|Hin]; [now rewrite Hx|]. rewrite (IH Hin Hx). apply andb_false_r.
Qed.

(** Under the [jobs] schema, an [updateJob] whose (truthy) status is a
    string outside the enumeration is refused as a whole when the job
    exists for that owner: nothing is written. *)
Theorem updateJob_schema_rejects_status (d : db) (t : table job) (r : job)
    (now : Z) (p : payload) (s : string) :
  db_jobs d = Some t -> In r (t_rows t) ->
  p_status p = JStr s -> s <> "" -> ~ In s ["pending"; "interview"; "decline"] ->
  updateJob jobs_schema_check d now (j_id r) (j_created_by r) p = Err CheckViolation.
Proof.
  intros Ht Hin Hp Hne Hs. unfold updateJob, sql_update. rewrite Ht.
  replace (forallb jobs_schema_check _) with false; [reflexivity|].
  symmetry. apply (forallb_false_intro _ _ (apply_updates (build_updates p now) r)).
  - apply in_map. apply filter_In. split; [exact Hin|].
    unfold job_matches. now rewrite !Z.eqb_refl.
  - assert (Hx : existsb (String.eqb s) ["pending"; "interview"; "decline"] = false).
    { apply existsb_all_false. intros y Hy.
      apply String.eqb_neq. intros <-. exact (Hs Hy). }
    assert (Ht' : truthy (JStr s) = true).
    { simpl. apply String.eqb_neq in Hne. now rewrite Hne. }
    unfold jobs_schema_check, apply_updates, build_updates.
    cbn [j_role j_company j_status upd_role upd_company upd_status].
    rewrite Hp. unfold spread_if_truthy at 3. rewrite Ht'. cbn [set_col].
    cbn [sql_text].
    destruct (sql_text (set_col (spread_if_truthy (p_role p)) (j_role r))),
             (sql_text (set_col (spread_if_truthy (p_company p)) (j_company r)));
      try reflexivity; cbn -[existsb]; now rewrite Hx, andb_false_r.
Qed.

Lemma updateJob_schema_rejects_status_witness :
  (db_jobs sample_db = Some (mk_table jobs_schema [job_a; job_b] 3) /\
   In job_a [job_a; job_b] /\ "hired" <> "" /\ ~ In "hired" ["pending"; "interview"; "decline"]) /\
  updateJob jobs_schema_check sample_db 500 1 1 (mk_payload JUndef JUndef (JStr "hired")) =
    Err CheckViolation.
Proof.
  assert (Hs : ~ In "hired" ["pending"; "interview"; "decline"]).
  { simpl. intros [H|[H|[H|[]]]]; discriminate. }
  split; [split; [reflexivity|split; [simpl; auto|split; [discriminate|exact Hs]]]|].
  exact (updateJob_schema_rejects_status sample_db (mk_table jobs_schema [job_a; job_b] 3) job_a
           500 (mk_payload JUndef JUndef (JStr "hired")) "hired" eq_refl (or_introl eq_refl)
           eq_refl ltac:(discriminate) Hs).
Defined.

Lemma like_pct_cons (p : list ascii) (x : ascii) (s : list ascii) :
  like ("%"%char :: p) (x :: s) = like p (x :: s) || like ("%"%char :: p) s.
Proof. reflexivity. Qed.

Lemma like_pct_nil (p : list ascii) :
  like ("%"%char :: p) [] = like p [].
Proof. simpl. apply orb_false_r. Qed.

Lemma like_pct (p s : list ascii) :
  like ("%"%char :: p) s = true <-> exists a b, s = app a b /\ like p b = true.
Proof.
  induction s as [|x s IH].
  - rewrite like_pct_nil. split.
    + intros H. exists [], []. split; [reflexivity|exact H].
    + intros [a [b [Hab Hb]]]. destruct a, b; try discriminate. exact Hb.
  - rewrite like_pct_cons, orb_true_iff, IH. split.
    + intros [H|[a [b [-> Hb]]]].
      * exists [], (x :: s). split; [reflexivity|exact H].
      * exists (x :: a), b. split; [reflexivity|exact Hb].
    + intros [a [b [Hab Hb]]]. destruct a as [|y a].
      * left. simpl in Hab. now subst b.
      * right. injection Hab as -> ->. exists a, b. split; [reflexivity|exact Hb].
Qed.

Lemma like_lit (c : ascii) (p s : list ascii) :
  Ascii.eqb c "%"%char = false -> Ascii.eqb c "_"%char = false ->
  like (c :: p) s = true <-> exists s', s = c :: s' /\ like p s' = true.
Proof.
  intros H1 H2. simpl. rewrite H1, H2. destruct s as [|d s]; split.
  - discriminate.
  - intros [s' [H _]]. discriminate.
  - intros H. apply andb_prop in H as [Hc H]. apply Ascii.eqb_eq in Hc. subst d.
    exists s. split; [reflexivity|exact H].
  - intros [s' [Hs H]]. injection Hs as -> ->. now rewrite Ascii.eqb_refl.
Qed.

Lemma like_pct_any (s : list ascii) : like ["%"%char] s = true.
Proof.
  apply like_pct. exists s, []. split; [now rewrite app_nil_r|reflexivity].
Qed.

(** The [users] CHECK constraints of [User.initTable], read off: a name of
    at most 50 characters (any shorter name, the empty one included, is
    accepted), an email with an [@] followed somewhere later by a [.] (the
    pattern ['%@%.%']), and a stored password of at least 6 characters. *)
Theorem users_check_spec (name email password : string) :
  users_check name email password = true <->
  (sql_length name <= 50)%nat /\
  (exists a b c, list_ascii_of_string email =
                 app a ("@"%char :: app b ("."%char :: c))) /\
  (6 <= sql_length password)%nat.
Proof.
  unfold users_check. rewrite !andb_true_iff, !Nat.leb_le.
  assert (Hl : forall s, like (list_ascii_of_string "%@%.%") s = true <->
               exists a b c, s = app a ("@"%char :: app b ("."%char :: c))).
  { intros s. change (list_ascii_of_string "%@%.%")
      with ["%"%char; "@"%char; "%"%char; "."%char; "%"%char].
    rewrite like_pct. split.
    - intros [a [s1 [-> H1]]]. apply like_lit in H1 as [s2 [-> H2]]; [|reflexivity|reflexivity].
      apply like_pct in H2 as [b [s3 [-> H3]]].
      apply like_lit in H3 as [c [-> _]]; [|reflexivity|reflexivity].
      exists a, b, c. reflexivity.
    - intros [a [b [c ->]]]. exists a, ("@"%char :: app b ("."%char :: c)).
      split; [reflexivity|]. apply like_lit; [reflexivity|reflexivity|].
      eexists. split; [reflexivity|]. apply like_pct.
      exists b, ("."%char :: c). split; [reflexivity|].
      apply like_lit; [reflexivity|reflexivity|]. eexists. split; [reflexivity|].
      apply like_pct_any. }
  rewrite Hl. tauto.
Qed.
